(** * SharedTokenCacheCredential: a shallow embedding of
      azure/identity/_credentials/shared_cache.py

    [get_token] of [_SharedTokenCacheCredential] is modelled in a small
    state/error/trace monad: the credential's mutable attributes
    ([_client_initialized], [_cache], [_cae_cache]) are the state, raised
    exceptions are the error channel (the state reached so far is kept, as
    Python keeps attribute writes made before a [raise]), and every access
    to a token cache or to the token-issuing service is recorded in a trace.

    The helpers of the base class [SharedTokenCacheBase] and the
    token-issuing client ([AadClient]) are not part of the source files at
    hand; the definitions for them below say so and follow the spec. *)

From Stdlib Require Import String Ascii List ZArith Bool Lia.
Import ListNotations.
Open Scope string_scope.

(** * samples/sample_analyze_addon_key_value_pairs.py

    The sample reads its endpoint and key from the environment, sends the
    document to the service inside a [with open(...)] block, waits for the
    result and prints the key-value pairs; its [__main__] block first adds
    the names of a [.env] file to the environment, and it reports
    [HttpResponseError]s and raises them again.  Its I/O is a trace of
    [io] events, raised exceptions are the error channel.  Python's [str]
    of floats and of the SDK's error objects, and [str.casefold], are kept
    abstract (section variables). *)

Module AnalyzeSample.

Section Sample.

(** Python floats and their [str] / [str] of a list of them. *)
Variable float : Type.
Variable str_float : float -> string.
Variable str_float_list : list float -> string.

(** ** Models of the SDK (azure.ai.documentintelligence.models) *)

Record BoundingRegion := mkBoundingRegion {
  page_number : Z;
  polygon : list float
}.

(** [bounding_regions] is optional in the SDK's model. *)
Record DocumentKeyValueElement := mkDocumentKeyValueElement {
  content : string;
  bounding_regions : option (list BoundingRegion)
}.

Record DocumentKeyValuePair := mkDocumentKeyValuePair {
  key : DocumentKeyValueElement;
  value : option DocumentKeyValueElement;
  confidence : float
}.

(** The [error] attribute of an [HttpResponseError] (its [code]) and the
    exception itself. *)
Record ODataV4Format := mkODataV4Format { code : string }.

Record HttpResponseError := mkHttpResponseError {
  error : option ODataV4Format;
  message : string
}.

Variable str_odata : ODataV4Format -> string.
Variable str_http_error : HttpResponseError -> string.
Variable casefold : string -> string.

Inductive exc :=
| KeyError (k : string)
| TypeError (msg : string)
| OSError (path : string)
| HttpError (e : HttpResponseError).

Inductive io :=
| Print (line : string)
| Open (path : string)
| Close (path : string)
| BeginAnalyze (endpoint api_key model_id : string) (features : list string)
    (content_type : string)
| PollResult.

Inductive outcome (A : Type) :=
| Done (a : A)
| Raised (e : exc).
Arguments Done {A} a.
Arguments Raised {A} e.

Definition IO (A : Type) := (list io * outcome A)%type.

Definition pure {A} (a : A) : IO A := ([], Done a).

Definition throw {A} (e : exc) : IO A := ([], Raised e).

Definition bindIO {A B} (m : IO A) (k : A -> IO B) : IO B :=
  match m with
  | (out, Done a) => let (out2, r) := k a in ((out ++ out2)%list, r)
  | (out, Raised e) => (out, Raised e)
  end.

Notation "x <- m ;; k" := (bindIO m (fun x => k))
  (at level 61, m at next level, right associativity).
Notation "m ;;; k" := (bindIO m (fun _ => k))
  (at level 61, right associativity).

Definition print (line : string) : IO unit := ([Print line], Done tt).

(** ** [str] of a Python int *)

Fixpoint string_of_uint (d : Decimal.uint) : string :=
  match d with
  | Decimal.Nil => EmptyString
  | Decimal.D0 d => String "0" (string_of_uint d)
  | Decimal.D1 d => String "1" (string_of_uint d)
  | Decimal.D2 d => String "2" (string_of_uint d)
  | Decimal.D3 d => String "3" (string_of_uint d)
  | Decimal.D4 d => String "4" (string_of_uint d)
  | Decimal.D5 d => String "5" (string_of_uint d)
  | Decimal.D6 d => String "6" (string_of_uint d)
  | Decimal.D7 d => String "7" (string_of_uint d)
  | Decimal.D8 d => String "8" (string_of_uint d)
  | Decimal.D9 d => String "9" (string_of_uint d)
  end.

Definition str_int (z : Z) : string :=
  match Z.to_int z with
  | Decimal.Pos u => string_of_uint u
  | Decimal.Neg u => String "-" (string_of_uint u)
  end.

(** ** Printing the result (lines 73-86) *)

Definition print_region (region : BoundingRegion) : IO unit :=
  print ("        page number " ++ str_int (page_number region) ++ ", region: "
         ++ str_float_list (polygon region)).

Fixpoint print_regions (regions : list BoundingRegion) : IO unit :=
  match regions with
  | [] => pure tt
  | region :: rest => print_region region ;;; print_regions rest
  end.

Definition NOT_ITERABLE : string := "'NoneType' object is not iterable".
Definition NO_LEN : string := "object of type 'NoneType' has no len()".

(** [for region in x.bounding_regions]: iterating [None] raises. *)
Definition for_bounding_regions (regions : option (list BoundingRegion)) : IO unit :=
  match regions with
  | None => throw (TypeError NOT_ITERABLE)
  | Some rs => print_regions rs
  end.

(** One pair; [if kvp.value] is true exactly for a present element (an SDK
    model with its required [content] set is a non-empty mapping). *)
Definition print_pair (kvp_idx : Z) (kvp : DocumentKeyValuePair) : IO unit :=
  print ("- Key-value Pair #" ++ str_int kvp_idx ++ ": ") ;;;
  print ("    Key '" ++ content (key kvp) ++ "'") ;;;
  for_bounding_regions (bounding_regions (key kvp)) ;;;
  (match value kvp with
   | Some v =>
       print ("    Value: " ++ content v) ;;;
       for_bounding_regions (bounding_regions v)
   | None => pure tt
   end) ;;;
  print ("    Confidence: " ++ str_float (confidence kvp)).

(** [for kvp_idx, kvp in enumerate(...)]. *)
Fixpoint print_pairs (kvp_idx : Z) (kvps : list DocumentKeyValuePair) : IO unit :=
  match kvps with
  | [] => pure tt
  | kvp :: rest => print_pair kvp_idx kvp ;;; print_pairs (kvp_idx + 1) rest
  end.

Definition HEADER : string := "----Key-value Pair detected in the document----".
Definition FOOTER : string := "----------------------------------------".

(** [result.key_value_pairs] is optional in the SDK's [AnalyzeResult]:
    [len(None)] and iterating [None] raise. *)
Definition print_key_value_pairs (key_value_pairs : option (list DocumentKeyValuePair))
    : IO unit :=
  print HEADER ;;;
  match key_value_pairs with
  | None => throw (TypeError NO_LEN)
  | Some kvps =>
      print ("Detected " ++ str_int (Z.of_nat (length kvps)) ++ " Key-value Pairs:") ;;;
      print_pairs 0 kvps ;;;
      print FOOTER
  end.

(** ** [analyze_key_value_pairs] (lines 45-87) *)

(** The process environment, the file system, and the service:
    [make_client] is the client construction (which may raise), [begin]
    the outcome of [begin_analyze_document], [poll] that of
    [poller.result()].  [find_dotenv] is the path [find_dotenv()] returns
    ([None] for its [""]: no [.env] file on the way up from the script's
    directory), and [dotenv_values path] the outcome of reading and parsing
    that file: the dict python-dotenv builds, a name given without a value
    ([KEY] alone on a line) mapped to [None]. *)
Record world := mkWorld {
  environ : string -> option string;
  can_open : string -> bool;
  make_client : string -> string -> option exc;
  begin : string -> string -> option exc;
  poll : outcome (option (list DocumentKeyValuePair));
  find_dotenv : option string;
  dotenv_values : string -> outcome (list (string * option string))
}.

Variable w : world.

(** [os.environ[name]]. *)
Definition environ_get (name : string) : IO string :=
  match environ w name with
  | Some v => pure v
  | None => throw (KeyError name)
  end.

(** [with open(path, "rb") as f: body]: the file is closed when the body
    ends, normally or by an exception. *)
Definition with_open {A} (path : string) (body : IO A) : IO A :=
  if can_open w path then
    match body with
    | (out, r) => ((Open path :: out ++ [Close path])%list, r)
    end
  else throw (OSError path).

Definition analyze_key_value_pairs (path_to_sample_documents : string) : IO unit :=
  endpoint <- environ_get "DOCUMENTINTELLIGENCE_ENDPOINT" ;;
  api_key <- environ_get "DOCUMENTINTELLIGENCE_API_KEY" ;;
  (match make_client w endpoint api_key with
   | Some e => throw e
   | None => pure tt
   end) ;;;
  with_open path_to_sample_documents
    (([BeginAnalyze endpoint api_key "prebuilt-layout" ["keyValuePairs"]
         "application/octet-stream"],
      match begin w endpoint api_key with
      | Some e => Raised e
      | None => Done tt
      end)) ;;;
  result <- ([PollResult], poll w) ;;
  print_key_value_pairs result.

(** ** The [__main__] block (lines 90-111) *)

(** Python's [needle in haystack] on strings. *)
Fixpoint contains (needle haystack : string) : bool :=
  prefix needle haystack ||
  match haystack with
  | EmptyString => false
  | String _ rest => contains needle rest
  end.

(** The [except HttpResponseError as error] handler: what it prints; it
    ends in [raise] on both branches. *)
Definition handle_http_error (e : HttpResponseError) : IO unit :=
  match error e with
  | Some inner =>
      (if String.eqb (code inner) "InvalidImage"
       then print ("Received an invalid image error: " ++ str_odata inner)
       else pure tt) ;;;
      (if String.eqb (code inner) "InvalidRequest"
       then print ("Received an invalid request error: " ++ str_odata inner)
       else pure tt) ;;;
      throw (HttpError e)
  | None =>
      (if contains (casefold "Invalid request") (casefold (message e))
       then print ("Uh-oh! Seems there was an invalid request: " ++ str_http_error e)
       else pure tt) ;;;
      throw (HttpError e)
  end.

(** The lines a run prints. *)
Definition printed (out : list io) : list string :=
  flat_map (fun ev => match ev with Print l => [l] | _ => [] end) out.

Definition pair_header (kvp_idx : Z) : string :=
  "- Key-value Pair #" ++ str_int kvp_idx ++ ": ".

(** The region lists the printing loop iterates over are present. *)
Definition regions_present (kvp : DocumentKeyValuePair) : bool :=
  match bounding_regions (key kvp), value kvp with
  | None, _ => false
  | Some _, None => true
  | Some _, Some v => match bounding_regions v with Some _ => true | None => false end
  end.

Definition is_print (ev : io) : bool :=
  match ev with Print _ => true | _ => false end.

Definition has_value (kvp : DocumentKeyValuePair) : bool :=
  match value kvp with Some _ => true | None => false end.

End Sample.

Arguments Done {A} a.
Arguments Raised {A} e.

(** ** [load_dotenv(find_dotenv())] and the [try] block (lines 94-111) *)

(** The environment after python-dotenv's [set_as_environment_variables]
    with [override=False]: a name already in [os.environ] keeps its value,
    a name of the file with a value is added, a name without one is
    skipped. *)
Definition dotenv_environ (environ : string -> option string)
    (values : list (string * option string)) (name : string) : option string :=
  match environ name with
  | Some v => Some v
  | None =>
      match find (fun kv => String.eqb (fst kv) name) values with
      | Some (_, v) => v
      | None => None
      end
  end.

Definition with_environ (float : Type) (w : world float)
    (env : string -> option string) : world float :=
  mkWorld float env (can_open float w) (make_client float w) (begin float w)
    (poll float w) (find_dotenv float w) (dotenv_values float w).

(** [load_dotenv(find_dotenv())]: with no file found ([load_dotenv("")])
    nothing is read; otherwise the file is read in a [with open(...)]
    block and the names it sets are added to the environment. *)
Definition load_dotenv (float : Type) (w : world float) : IO (world float) :=
  match find_dotenv float w with
  | None => pure w
  | Some dotenv_path =>
      bindIO (with_open float w dotenv_path ([], dotenv_values float w dotenv_path))
        (fun values => pure (with_environ float w (dotenv_environ (environ float w) values)))
  end.

(** [try: load_dotenv(find_dotenv()); analyze_key_value_pairs()
    except HttpResponseError: ...]; other exceptions leave the block
    unhandled. *)
Definition main (float : Type) (str_float : float -> string)
    (str_float_list : list float -> string) (str_odata : ODataV4Format -> string)
    (str_http_error : HttpResponseError -> string) (casefold : string -> string)
    (w : world float) (path_to_sample_documents : string) : IO unit :=
  match bindIO (load_dotenv float w)
          (fun w' => analyze_key_value_pairs float str_float str_float_list w'
                       path_to_sample_documents) with
  | (out, Raised (HttpError e)) =>
      let (out2, r) := handle_http_error str_odata str_http_error casefold e in
      ((out ++ out2)%list, r)
  | r => r
  end.

(** ** Concrete inputs: floats stood for by integers *)

Definition demo_region : BoundingRegion Z := mkBoundingRegion Z 1 [0; 0; 1; 1]%Z.

Definition demo_pairs : list (DocumentKeyValuePair Z) :=
  [mkDocumentKeyValuePair Z (mkDocumentKeyValueElement Z "Name:" (Some [demo_region]))
     (Some (mkDocumentKeyValueElement Z "Alice" (Some [demo_region]))) 90;
   mkDocumentKeyValuePair Z (mkDocumentKeyValueElement Z "Date:" (Some [])) None 80]%Z.

Definition demo_http_error : HttpResponseError :=
  mkHttpResponseError (Some (mkODataV4Format "InvalidImage")) "Invalid image".

Definition only_endpoint (name : string) : option string :=
  if String.eqb name "DOCUMENTINTELLIGENCE_ENDPOINT" then Some "https://example.invalid"
  else None.

Definition dotenv_path : string := "/samples/.env".

(** A [.env] file that names the key without giving it a value, and
    another endpoint, which does not override the environment's. *)
Definition keyless_dotenv : list (string * option string) :=
  [("DOCUMENTINTELLIGENCE_ENDPOINT", Some "https://other.invalid");
   ("DOCUMENTINTELLIGENCE_API_KEY", None)].

Definition keyed_dotenv : list (string * option string) :=
  [("DOCUMENTINTELLIGENCE_API_KEY", Some "key")].

(** Only the endpoint is set, in the environment and in the [.env] file. *)
Definition world_without_key : world Z :=
  mkWorld Z only_endpoint
    (fun _ => true) (fun _ _ => None) (fun _ _ => None) (Done None)
    (Some dotenv_path) (fun _ => Done keyless_dotenv).

(** The key comes from the [.env] file; the service rejects the document. *)
Definition rejecting_world : world Z :=
  mkWorld Z only_endpoint (fun _ => true) (fun _ _ => None)
    (fun _ _ => Some (HttpError demo_http_error)) (Done None)
    (Some dotenv_path) (fun _ => Done keyed_dotenv).

End AnalyzeSample.

Module SharedCache.

(** ** Data model *)

(** An account record of the cache ([account.get("username")], ...). *)
Record account := mkAccount {
  username : string;
  account_tenant_id : string;
  home_account_id : string
}.

(** A cached access token: value, expiry, scopes and owning account. *)
Record cached_access_token := mkCachedAccessToken {
  at_secret : string;
  at_expires_on : Z;
  at_scopes : list string;
  at_home_account_id : string
}.

(** A cached refresh token: opaque value and owning account. *)
Record cached_refresh_token := mkCachedRefreshToken {
  rt_secret : string;
  rt_home_account_id : string
}.

(** An in-memory token cache. *)
Record TokenCache := mkTokenCache {
  accounts : list account;
  access_tokens : list cached_access_token;
  refresh_tokens : list cached_refresh_token
}.

(** [azure.core.credentials.AccessToken]. *)
Record AccessToken := mkAccessToken {
  token : string;
  expires_on : Z
}.

(** Exceptions raised by [get_token]. *)
Inductive error :=
| ValueError (msg : string)
| CredentialUnavailableError (msg : string)
| ClientAuthenticationError (msg : string).

Inductive result (A : Type) :=
| Ok (a : A)
| Err (e : error).
Arguments Ok {A} a.
Arguments Err {A} e.

(** Observable accesses: to a cache slot, to the persistent store, and to
    the token-issuing service. *)
Inductive event :=
| InitializeClient
| ReadCacheSlot (is_cae : bool)
| LoadCache (is_cae : bool)
| GetAccount (is_cae : bool)
| GetCachedAccessToken (is_cae : bool)
| GetRefreshTokens (is_cae : bool)
| ObtainTokenByRefreshToken (scopes : list string) (refresh_token : string)
    (claims : option string) (tenant_id : option string).

(** The mutable attributes of the credential object. *)
Record state := mkState {
  _client_initialized : bool;
  _cache : option TokenCache;
  _cae_cache : option TokenCache
}.

(** Construction-time configuration and the external collaborators:
    the selectors [_username] / [_tenant_id], the clock, the persistent
    store and the token-issuing service. *)
Record config := mkConfig {
  cfg_username : option string;
  cfg_tenant_id : option string;
  now : Z;
  load_persistent_cache : bool -> option TokenCache;
  exchange : list string -> string -> option string -> option string ->
             result AccessToken
}.

(** ** The monad *)

Record run (A : Type) := mkRun {
  res : result A;
  st : state;
  trace : list event
}.
Arguments mkRun {A} res st trace.
Arguments res {A} r.
Arguments st {A} r.
Arguments trace {A} r.

Definition M (A : Type) := state -> run A.

Definition ret {A} (a : A) : M A := fun s => mkRun (Ok a) s [].

Definition raise {A} (e : error) : M A := fun s => mkRun (Err e) s [].

Definition bind {A B} (m : M A) (k : A -> M B) : M B :=
  fun s =>
    match m s with
    | mkRun (Ok a) s1 t1 =>
        match k a s1 with mkRun r2 s2 t2 => mkRun r2 s2 (t1 ++ t2) end
    | mkRun (Err e) s1 t1 => mkRun (Err e) s1 t1
    end.

Definition emit (ev : event) : M unit := fun s => mkRun (Ok tt) s [ev].

Definition gets {A} (f : state -> A) : M A := fun s => mkRun (Ok (f s)) s [].

Definition modify (f : state -> state) : M unit := fun s => mkRun (Ok tt) (f s) [].

Notation "x <- m ;; k" := (bind m (fun x => k))
  (at level 61, m at next level, right associativity).
Notation "m ;;; k" := (bind m (fun _ => k))
  (at level 61, right associativity).

(** ** Cache slots *)

Definition selected_cache (is_cae : bool) (s : state) : option TokenCache :=
  if is_cae then _cae_cache s else _cache s.

Definition set_cache_slot (is_cae : bool) (c : option TokenCache) (s : state) : state :=
  if is_cae then mkState (_client_initialized s) (_cache s) c
  else mkState (_client_initialized s) c (_cae_cache s).

(** ** Pure cache queries *)

(** Modelled from the spec: the account-selection of
    [SharedTokenCacheBase._get_account] (not among the source files): the
    accounts matching the configured username / tenant selectors; exactly
    one match is selected, zero or several fail. *)
Definition NO_ACCOUNTS : string := "no account found".
Definition MULTIPLE_ACCOUNTS : string :=
  "multiple accounts found; specify username/tenant".

Definition account_matches (username_sel tenant_sel : option string)
    (a : account) : bool :=
  match username_sel with None => true | Some u => String.eqb (username a) u end &&
  match tenant_sel with None => true | Some t => String.eqb (account_tenant_id a) t end.

Definition select_account (username_sel tenant_sel : option string)
    (c : TokenCache) : result account :=
  match filter (account_matches username_sel tenant_sel) (accounts c) with
  | [a] => Ok a
  | [] => Err (CredentialUnavailableError NO_ACCOUNTS)
  | _ => Err (CredentialUnavailableError MULTIPLE_ACCOUNTS)
  end.

(** Modelled from the spec: the access-token test of
    [SharedTokenCacheBase._get_cached_access_token] (not among the source
    files): a token of the account whose scopes cover the requested ones and
    whose expiry lies beyond now plus a short clock-skew margin.  The call
    site (shared_cache.py line 136) passes no claims, and access-token
    records carry none (spec, data model), so no claims test is made. *)
Definition clock_skew_margin : Z := 300.

Definition scopes_covered (scopes granted : list string) : bool :=
  forallb (fun sc => existsb (String.eqb sc) granted) scopes.

Definition access_token_valid (now : Z) (scopes : list string) (a : account)
    (e : cached_access_token) : bool :=
  String.eqb (at_home_account_id e) (home_account_id a) &&
  scopes_covered scopes (at_scopes e) &&
  (now + clock_skew_margin <? at_expires_on e)%Z.

Definition to_AccessToken (e : cached_access_token) : AccessToken :=
  mkAccessToken (at_secret e) (at_expires_on e).

Definition find_access_token (now : Z) (scopes : list string) (a : account)
    (c : TokenCache) : option AccessToken :=
  match find (access_token_valid now scopes a) (access_tokens c) with
  | Some e => Some (to_AccessToken e)
  | None => None
  end.

(** Modelled from the spec: the refresh tokens of the account, in cache
    order ([SharedTokenCacheBase._get_refresh_tokens]). *)
Definition refresh_tokens_for (a : account) (c : TokenCache) : list string :=
  map rt_secret
    (filter (fun r => String.eqb (rt_home_account_id r) (home_account_id a))
       (refresh_tokens c)).

(** Modelled from the spec: [NO_TOKEN] of [_internal.shared_token_cache],
    formatted with the account's username. *)
Definition NO_TOKEN (user : string) : string :=
  "no usable refresh token for account " ++ user.

(** The cache a call works on once the lazy load has run. *)
Definition loaded_cache (cfg : config) (is_cae : bool) (s : state)
    : option TokenCache :=
  match selected_cache is_cae s with
  | Some c => Some c
  | None => load_persistent_cache cfg is_cae
  end.

Section Credential.

Variable cfg : config.

(** ** Helpers of [SharedTokenCacheBase] and [AadClient] *)

(** Modelled from the spec: [_initialize_client] builds the client; it
    touches no cache. *)
Definition _initialize_client : M unit :=
  emit InitializeClient ;;;
  modify (fun s => mkState true (_cache s) (_cae_cache s)).

(** Modelled from the spec: [_initialize_cache(is_cae)] reads the
    persistent store once and keeps the result in the selected slot
    (load once, then reuse). *)
Definition _initialize_cache (is_cae : bool) : M (option TokenCache) :=
  c <- gets (selected_cache is_cae);;
  match c with
  | Some c => ret (Some c)
  | None =>
      emit (LoadCache is_cae) ;;;
      let loaded := load_persistent_cache cfg is_cae in
      modify (set_cache_slot is_cae loaded) ;;;
      ret loaded
  end.

(** Modelled from the spec: [_get_account(username, tenant_id, is_cae)]. *)
Definition _get_account (username_sel tenant_sel : option string)
    (is_cae : bool) : M account :=
  emit (GetAccount is_cae) ;;;
  c <- gets (selected_cache is_cae);;
  match c with
  | None => raise (CredentialUnavailableError NO_ACCOUNTS)
  | Some c =>
      match select_account username_sel tenant_sel c with
      | Ok a => ret a
      | Err e => raise e
      end
  end.

(** Modelled from the spec: [_get_cached_access_token(scopes, account, is_cae)]. *)
Definition _get_cached_access_token (scopes : list string) (a : account)
    (is_cae : bool) : M (option AccessToken) :=
  emit (GetCachedAccessToken is_cae) ;;;
  c <- gets (selected_cache is_cae);;
  match c with
  | None => ret None
  | Some c => ret (find_access_token (now cfg) scopes a c)
  end.

(** Modelled from the spec: [_get_refresh_tokens(account, is_cae)]. *)
Definition _get_refresh_tokens (a : account) (is_cae : bool) : M (list string) :=
  emit (GetRefreshTokens is_cae) ;;;
  c <- gets (selected_cache is_cae);;
  match c with
  | None => ret []
  | Some c => ret (refresh_tokens_for a c)
  end.

(** Modelled from the spec: [self._client.obtain_token_by_refresh_token]
    is one call to the token-issuing collaborator; its errors are raised
    as they are. *)
Definition obtain_token_by_refresh_token (scopes : list string)
    (refresh_token : string) (claims tenant_id : option string) : M AccessToken :=
  emit (ObtainTokenByRefreshToken scopes refresh_token claims tenant_id) ;;;
  match exchange cfg scopes refresh_token claims tenant_id with
  | Ok t => ret t
  | Err e => raise e
  end.

(** ** [_SharedTokenCacheCredential.get_token] (shared_cache.py 109-147) *)

Definition get_token (scopes : list string) (claims tenant_id : option string)
    (enable_cae : bool) : M AccessToken :=
  match scopes with
  | [] => raise (ValueError "'get_token' requires at least one scope")
  | _ :: _ =>
    client_initialized <- gets _client_initialized;;
    (if client_initialized then ret tt else _initialize_client) ;;;
    let is_cae := enable_cae in
    emit (ReadCacheSlot is_cae) ;;;
    token_cache <- gets (selected_cache is_cae);;
    token_cache <- (match token_cache with
                    | Some c => ret (Some c)
                    | None => _initialize_cache is_cae
                    end);;
    match token_cache with
    | None => raise (CredentialUnavailableError "Shared token cache unavailable")
    | Some _ =>
      account <- _get_account (cfg_username cfg) (cfg_tenant_id cfg) is_cae;;
      token <- _get_cached_access_token scopes account is_cae;;
      match token with
      | Some t => ret t
      | None =>
        (* try each refresh token, returning the first access token acquired *)
        rts <- _get_refresh_tokens account is_cae;;
        match rts with
        | refresh_token :: _ =>
            obtain_token_by_refresh_token scopes refresh_token claims tenant_id
        | [] => raise (CredentialUnavailableError (NO_TOKEN (username account)))
        end
      end
    end
  end.

(** ** [SharedTokenCacheCredential] (shared_cache.py 19-85) *)

(** The inner credential chosen by [__init__]. *)
Inductive inner_credential :=
| SilentAuthenticationCredential
| SharedTokenCacheCredential_inner.

Definition SharedTokenCacheCredential_init (has_authentication_record : bool)
    : inner_credential :=
  if has_authentication_record then SilentAuthenticationCredential
  else SharedTokenCacheCredential_inner.

(** The public [get_token] forwards every argument to the inner credential;
    [silent_get_token] stands for [SilentAuthenticationCredential.get_token]. *)
Definition public_get_token
    (silent_get_token : list string -> option string -> option string -> bool ->
                        M AccessToken)
    (cred : inner_credential) (scopes : list string)
    (claims tenant_id : option string) (enable_cae : bool) : M AccessToken :=
  match cred with
  | SilentAuthenticationCredential => silent_get_token scopes claims tenant_id enable_cae
  | SharedTokenCacheCredential_inner => get_token scopes claims tenant_id enable_cae
  end.

End Credential.

(** Calls to the token-issuing service in a trace. *)
Definition is_exchange (ev : event) : bool :=
  match ev with ObtainTokenByRefreshToken _ _ _ _ => true | _ => false end.

Definition exchanges (tr : list event) : list event := filter is_exchange tr.

(** The cache flag of an event that touches a cache, if any. *)
Definition cache_flag (ev : event) : option bool :=
  match ev with
  | ReadCacheSlot b | LoadCache b | GetAccount b
  | GetCachedAccessToken b | GetRefreshTokens b => Some b
  | _ => None
  end.


(** ** A concrete configuration *)

Definition alice : account := mkAccount "alice@example.com" "tenant-a" "uid-a".
Definition bob : account := mkAccount "bob@example.com" "tenant-b" "uid-b".

Definition demo_scope : string := "https://service/.default".

(** Alice has an expired access token and one refresh token. *)
Definition demo_cache : TokenCache :=
  mkTokenCache [alice]
    [mkCachedAccessToken "old-at" 100 [demo_scope] "uid-a"]
    [mkCachedRefreshToken "rt-1" "uid-a"; mkCachedRefreshToken "rt-2" "uid-a"].

(** The store holds [demo_cache] for the standard partition and nothing for
    CAE; the service echoes the refresh token and tenant it was given. *)
Definition demo_exchange (scopes : list string) (rt : string)
    (claims tenant : option string) : result AccessToken :=
  match tenant with
  | Some t => Ok (mkAccessToken (rt ++ "@" ++ t) 5000)
  | None => Ok (mkAccessToken rt 5000)
  end.

Definition demo_cfg : config :=
  mkConfig None None 1000
    (fun is_cae => if is_cae then None else Some demo_cache)
    demo_exchange.

Definition cold : state := mkState false None None.

(** Events past account resolution: token lookups and exchanges. *)
Definition is_token_lookup (ev : event) : bool :=
  match ev with
  | GetCachedAccessToken _ | GetRefreshTokens _ | ObtainTokenByRefreshToken _ _ _ _ => true
  | _ => false
  end.

(** The same configuration over another persistent store. *)
Definition with_store (cfg : config) (l : bool -> option TokenCache) : config :=
  mkConfig (cfg_username cfg) (cfg_tenant_id cfg) (now cfg) l (exchange cfg).

(** A configuration selecting an account absent from [demo_cache]. *)
Definition carol_cfg : config :=
  mkConfig (Some "carol@example.com") None 1000
    (fun is_cae => if is_cae then None else Some demo_cache)
    demo_exchange.

(** Alice holds a fresh access token for [demo_scope]. *)
Definition fresh_cache : TokenCache :=
  mkTokenCache [alice]
    [mkCachedAccessToken "fresh-at" 9000 [demo_scope] "uid-a"]
    [mkCachedRefreshToken "rt-1" "uid-a"].

(** Two accounts, no tokens. *)
Definition two_accounts_cache : TokenCache := mkTokenCache [alice; bob] [] [].

(** Alice with no token at all. *)
Definition bare_cache : TokenCache := mkTokenCache [alice] [] [].

(** A service rejecting every refresh token. *)
Definition revoked_cfg : config :=
  mkConfig None None 1000
    (fun is_cae => if is_cae then None else Some demo_cache)
    (fun _ _ _ _ => Err (ClientAuthenticationError "refresh token revoked")).

(** A stand-in for [SilentAuthenticationCredential.get_token]. *)
Definition silent_stub (scopes : list string) (claims tenant_id : option string)
    (enable_cae : bool) : M AccessToken :=
  raise (CredentialUnavailableError "silent authentication").

Definition loaded (c : TokenCache) : state := mkState true (Some c) None.

(** Store reads in a trace. *)
Definition is_load (ev : event) : bool :=
  match ev with LoadCache _ => true | _ => false end.

(** ** Runs on the concrete configuration *)

Example demo_refresh :
  res (get_token demo_cfg [demo_scope] None None false cold)
  = Ok (mkAccessToken "rt-1" 5000).
Proof. reflexivity. Qed.

Example demo_refresh_trace :
  trace (get_token demo_cfg [demo_scope] None None false cold)
  = [InitializeClient; ReadCacheSlot false; LoadCache false; GetAccount false;
     GetCachedAccessToken false; GetRefreshTokens false;
     ObtainTokenByRefreshToken [demo_scope] "rt-1" None None].
Proof. reflexivity. Qed.

Example demo_cae_unavailable :
  res (get_token demo_cfg [demo_scope] None None true cold)
  = Err (CredentialUnavailableError "Shared token cache unavailable").
Proof. reflexivity. Qed.

(** ** Proof tooling *)

Ltac step :=
  unfold get_token, _initialize_client, _initialize_cache, _get_account,
    _get_cached_access_token, _get_refresh_tokens,
    obtain_token_by_refresh_token, bind, ret, raise, emit, gets, modify,
    selected_cache, set_cache_slot, loaded_cache, exchanges in *;
  simpl in *.

(** Split a call on a non-empty scope list along the client flag, the CAE
    flag and whether the selected slot is already loaded. *)
Ltac split_call s cae :=
  let ci := fresh "ci" in let c0 := fresh "c0" in let c1 := fresh "c1" in
  destruct s as [ci c0 c1]; destruct cae; destruct ci;
  [destruct c1 | destruct c1 | destruct c0 | destruct c0]; step.

Lemma find_access_token_some now scopes a c e :
  In e (access_tokens c) -> access_token_valid now scopes a e = true ->
  exists e', In e' (access_tokens c) /\ access_token_valid now scopes a e' = true /\
             find_access_token now scopes a c = Some (to_AccessToken e').
Proof.
  intros Hin Hv. unfold find_access_token.
  destruct (find (access_token_valid now scopes a) (access_tokens c)) as [e'|] eqn:Hf.
  - apply find_some in Hf as [Hin' Hv']. exists e'. auto.
  - pose proof (find_none _ _ Hf e Hin) as Hn. congruence.
Qed.

(** C1: with no scope, [get_token] raises [ValueError] at once: the state is
    unchanged and nothing is accessed (no client set-up, cache read, load or
    exchange). *)
Theorem get_token_empty_scopes cfg s claims tenant_id enable_cae :
  get_token cfg [] claims tenant_id enable_cae s
  = mkRun (Err (ValueError "'get_token' requires at least one scope")) s [].
Proof. reflexivity. Qed.

(** C4: when the selected slot is not loaded and the store yields no
    cache, [get_token] raises [CredentialUnavailableError] and makes no
    call to the token-issuing service. *)
Theorem get_token_cache_unavailable cfg s scopes claims tenant_id enable_cae :
  scopes <> [] ->
  selected_cache enable_cae s = None ->
  load_persistent_cache cfg enable_cae = None ->
  res (get_token cfg scopes claims tenant_id enable_cae s)
    = Err (CredentialUnavailableError "Shared token cache unavailable") /\
  exchanges (trace (get_token cfg scopes claims tenant_id enable_cae s)) = [].
Proof.
  intros Hne Hsel Hload.
  destruct scopes as [|sc rest]; [contradiction|].
  split_call s enable_cae; try discriminate; rewrite Hload; step; auto.
Qed.


(** Split a call whose selected cache is (or loads as) [c]. *)
Ltac split_loaded s cae Hload :=
  split_call s cae;
  first [ injection Hload as <- | rewrite Hload in *; step ].

(** C2: when the resolved account has a cached access token covering the
    requested scopes and valid beyond the clock-skew margin, [get_token]
    returns such a cached token and makes no call to the token-issuing
    service. *)
Theorem get_token_cached_access_token cfg s scopes claims tenant_id enable_cae c a e :
  scopes <> [] ->
  loaded_cache cfg enable_cae s = Some c ->
  select_account (cfg_username cfg) (cfg_tenant_id cfg) c = Ok a ->
  In e (access_tokens c) ->
  access_token_valid (now cfg) scopes a e = true ->
  exists e', In e' (access_tokens c) /\
    access_token_valid (now cfg) scopes a e' = true /\
    res (get_token cfg scopes claims tenant_id enable_cae s) = Ok (to_AccessToken e') /\
    exchanges (trace (get_token cfg scopes claims tenant_id enable_cae s)) = [].
Proof.
  intros Hne Hload Hacc Hin Hv.
  destruct (find_access_token_some _ _ _ _ _ Hin Hv) as (e' & Hin' & Hv' & Hf).
  exists e'. split; [exact Hin'|]. split; [exact Hv'|].
  destruct scopes as [|sc rest]; [contradiction|].
  split_loaded s enable_cae Hload; rewrite Hacc; step; rewrite Hf; step; auto.
Qed.


Lemma string_append_empty_r (x : string) : x ++ EmptyString = x.
Proof. induction x as [|ch x IH]; simpl; [reflexivity | rewrite IH; reflexivity]. Qed.

Lemma select_account_not_one u t c :
  length (filter (account_matches u t) (accounts c)) <> 1 ->
  select_account u t c
  = Err (CredentialUnavailableError
           (if Nat.eqb (length (filter (account_matches u t) (accounts c))) 0
            then NO_ACCOUNTS else MULTIPLE_ACCOUNTS)).
Proof.
  unfold select_account.
  destruct (filter (account_matches u t) (accounts c)) as [|a [|b l]];
    simpl; intros H; [reflexivity | lia | reflexivity].
Qed.

(** The refresh-token fallback: one exchange, with the first refresh token,
    whose outcome is the call's outcome. *)
Lemma get_token_refresh_path cfg s scopes claims tenant_id enable_cae c a rt rts :
  scopes <> [] ->
  loaded_cache cfg enable_cae s = Some c ->
  select_account (cfg_username cfg) (cfg_tenant_id cfg) c = Ok a ->
  find_access_token (now cfg) scopes a c = None ->
  refresh_tokens_for a c = rt :: rts ->
  res (get_token cfg scopes claims tenant_id enable_cae s)
    = exchange cfg scopes rt claims tenant_id /\
  exchanges (trace (get_token cfg scopes claims tenant_id enable_cae s))
    = [ObtainTokenByRefreshToken scopes rt claims tenant_id].
Proof.
  intros Hne Hload Hacc Hf Hrt.
  destruct scopes as [|sc rest]; [contradiction|].
  split_loaded s enable_cae Hload; rewrite Hacc; step; rewrite Hf; step;
    rewrite Hrt; step;
    destruct (exchange cfg (sc :: rest) rt claims tenant_id); step;
    rewrite ?app_nil_r; auto.
Qed.

(** C3: a call that reaches the refresh-token fallback makes exactly one
    call to the token-issuing service, with the first refresh token of the
    account, and returns that call's outcome (token or error) without
    trying any further refresh token. *)
Theorem get_token_single_exchange cfg s scopes claims tenant_id enable_cae c a rt rts :
  scopes <> [] ->
  loaded_cache cfg enable_cae s = Some c ->
  select_account (cfg_username cfg) (cfg_tenant_id cfg) c = Ok a ->
  find_access_token (now cfg) scopes a c = None ->
  refresh_tokens_for a c = rt :: rts ->
  exchanges (trace (get_token cfg scopes claims tenant_id enable_cae s))
    = [ObtainTokenByRefreshToken scopes rt claims tenant_id] /\
  res (get_token cfg scopes claims tenant_id enable_cae s)
    = exchange cfg scopes rt claims tenant_id.
Proof.
  intros. destruct (get_token_refresh_path cfg s scopes claims tenant_id enable_cae c a rt rts)
    as [Hr Ht]; auto.
Qed.

(** C8: when the token-issuing service fails with error [e], [get_token]
    raises exactly [e], unwrapped, after that single exchange call: no
    retry with this or another refresh token. *)
Theorem get_token_exchange_error_propagates cfg s scopes claims tenant_id enable_cae c a rt rts e :
  scopes <> [] ->
  loaded_cache cfg enable_cae s = Some c ->
  select_account (cfg_username cfg) (cfg_tenant_id cfg) c = Ok a ->
  find_access_token (now cfg) scopes a c = None ->
  refresh_tokens_for a c = rt :: rts ->
  exchange cfg scopes rt claims tenant_id = Err e ->
  res (get_token cfg scopes claims tenant_id enable_cae s) = Err e /\
  exchanges (trace (get_token cfg scopes claims tenant_id enable_cae s))
    = [ObtainTokenByRefreshToken scopes rt claims tenant_id].
Proof.
  intros Hne Hload Hacc Hf Hrt He.
  destruct (get_token_refresh_path cfg s scopes claims tenant_id enable_cae c a rt rts)
    as [Hr Ht]; auto.
  rewrite Hr, He. auto.
Qed.

(** C10: through the public [SharedTokenCacheCredential] built without an
    authentication record, a call reaching the refresh-token exchange
    passes the caller's [tenant_id] unchanged to the token-issuing service,
    and the token obtained is the service's answer for that tenant. *)
Theorem public_get_token_forwards_tenant_id silent cfg s scopes claims tenant_id enable_cae c a rt rts :
  scopes <> [] ->
  loaded_cache cfg enable_cae s = Some c ->
  select_account (cfg_username cfg) (cfg_tenant_id cfg) c = Ok a ->
  find_access_token (now cfg) scopes a c = None ->
  refresh_tokens_for a c = rt :: rts ->
  let r := public_get_token cfg silent (SharedTokenCacheCredential_init false)
             scopes claims tenant_id enable_cae s in
  exchanges (trace r) = [ObtainTokenByRefreshToken scopes rt claims tenant_id] /\
  res r = exchange cfg scopes rt claims tenant_id.
Proof.
  intros Hne Hload Hacc Hf Hrt r. subst r. simpl.
  destruct (get_token_refresh_path cfg s scopes claims tenant_id enable_cae c a rt rts)
    as [Hr Ht]; auto.
Qed.

(** C7: when the resolved account has no valid cached access token and no
    refresh token, [get_token] raises [CredentialUnavailableError] whose
    message contains the account's username, and makes no exchange. *)
Theorem get_token_no_refresh_token cfg s scopes claims tenant_id enable_cae c a :
  scopes <> [] ->
  loaded_cache cfg enable_cae s = Some c ->
  select_account (cfg_username cfg) (cfg_tenant_id cfg) c = Ok a ->
  find_access_token (now cfg) scopes a c = None ->
  refresh_tokens_for a c = [] ->
  exists msg,
    res (get_token cfg scopes claims tenant_id enable_cae s)
      = Err (CredentialUnavailableError msg) /\
    (exists pre post, msg = pre ++ username a ++ post) /\
    exchanges (trace (get_token cfg scopes claims tenant_id enable_cae s)) = [].
Proof.
  intros Hne Hload Hacc Hf Hrt.
  exists (NO_TOKEN (username a)). split; [|split].
  - destruct scopes as [|sc rest]; [contradiction|].
    split_loaded s enable_cae Hload; rewrite Hacc; step; rewrite Hf; step;
      rewrite Hrt; step; reflexivity.
  - exists "no usable refresh token for account ", EmptyString.
    unfold NO_TOKEN. rewrite string_append_empty_r. reflexivity.
  - destruct scopes as [|sc rest]; [contradiction|].
    split_loaded s enable_cae Hload; rewrite Hacc; step; rewrite Hf; step;
      rewrite Hrt; step; reflexivity.
Qed.

(** C6: when the number of accounts matching the configured username /
    tenant selectors is not exactly one, [get_token] raises
    [CredentialUnavailableError] ("no account found" for none, "multiple
    accounts found" for several) and does no token lookup and no exchange. *)
Theorem get_token_account_not_unique cfg s scopes claims tenant_id enable_cae c :
  scopes <> [] ->
  loaded_cache cfg enable_cae s = Some c ->
  length (filter (account_matches (cfg_username cfg) (cfg_tenant_id cfg)) (accounts c)) <> 1 ->
  res (get_token cfg scopes claims tenant_id enable_cae s)
    = Err (CredentialUnavailableError
             (if Nat.eqb (length (filter (account_matches (cfg_username cfg) (cfg_tenant_id cfg))
                                (accounts c))) 0
              then NO_ACCOUNTS else MULTIPLE_ACCOUNTS)) /\
  existsb is_token_lookup (trace (get_token cfg scopes claims tenant_id enable_cae s)) = false.
Proof.
  intros Hne Hload Hlen.
  pose proof (select_account_not_one _ _ _ Hlen) as Hacc.
  destruct scopes as [|sc rest]; [contradiction|].
  split_loaded s enable_cae Hload; rewrite Hacc; step; auto.
Qed.


(** Case analysis on every remaining branch of a call. *)
Ltac crush_branches :=
  repeat (step;
          match goal with
          | |- context [match ?x with _ => _ end] =>
              lazymatch type of x with
              | run _ => fail
              | _ => destruct x
              end
          end);
  step.

Definition flag_ok (is_cae : bool) (ev : event) : bool :=
  match cache_flag ev with None => true | Some b => Bool.eqb b is_cae end.

Lemma get_token_flags_ok cfg s scopes claims tenant_id enable_cae :
  forallb (flag_ok enable_cae) (trace (get_token cfg scopes claims tenant_id enable_cae s))
  = true.
Proof.
  destruct scopes as [|sc rest]; [reflexivity|].
  split_call s enable_cae; crush_branches; reflexivity.
Qed.

Lemma get_token_flags cfg s scopes claims tenant_id enable_cae ev :
  In ev (trace (get_token cfg scopes claims tenant_id enable_cae s)) ->
  cache_flag ev = None \/ cache_flag ev = Some enable_cae.
Proof.
  intros Hin.
  pose proof (proj1 (forallb_forall _ _) (get_token_flags_ok cfg s scopes claims tenant_id enable_cae) ev Hin) as H.
  unfold flag_ok in H. destruct (cache_flag ev) as [b|]; [right | left; reflexivity].
  apply Bool.eqb_prop in H. subst. reflexivity.
Qed.

Lemma get_token_reads_selected_slot cfg s sc rest claims tenant_id enable_cae :
  In (ReadCacheSlot enable_cae)
     (trace (get_token cfg (sc :: rest) claims tenant_id enable_cae s)).
Proof.
  split_call s enable_cae; crush_branches; simpl; auto 20.
Qed.


Lemma get_token_other_slot cfg s scopes claims tenant_id enable_cae c' :
  get_token cfg scopes claims tenant_id enable_cae (set_cache_slot (negb enable_cae) c' s)
  = let r := get_token cfg scopes claims tenant_id enable_cae s in
    mkRun (res r) (set_cache_slot (negb enable_cae) c' (st r)) (trace r).
Proof.
  destruct scopes as [|sc rest]; [reflexivity|].
  split_call s enable_cae; crush_branches; reflexivity.
Qed.

Lemma get_token_other_store cfg l s scopes claims tenant_id enable_cae :
  l enable_cae = load_persistent_cache cfg enable_cae ->
  get_token (with_store cfg l) scopes claims tenant_id enable_cae s
  = get_token cfg scopes claims tenant_id enable_cae s.
Proof.
  intros Hl.
  destruct scopes as [|sc rest]; [reflexivity|].
  split_call s enable_cae; rewrite ?Hl; crush_branches; reflexivity.
Qed.


(** C5: a call works on the single cache selected by its CAE flag: every
    cache access it makes (slot read, load, account, access-token and
    refresh-token lookup) carries that flag, a call with scopes reads that
    slot, and neither the other slot's contents nor what the store holds for
    the other partition changes its outcome or trace; the other slot is left
    as it was. *)
Theorem get_token_single_cache cfg s scopes claims tenant_id enable_cae :
  let r := get_token cfg scopes claims tenant_id enable_cae s in
  (forall ev, In ev (trace r) -> cache_flag ev = None \/ cache_flag ev = Some enable_cae) /\
  (scopes <> [] -> In (ReadCacheSlot enable_cae) (trace r)) /\
  (forall c', get_token cfg scopes claims tenant_id enable_cae
                (set_cache_slot (negb enable_cae) c' s)
              = mkRun (res r) (set_cache_slot (negb enable_cae) c' (st r)) (trace r)) /\
  (forall l, l enable_cae = load_persistent_cache cfg enable_cae ->
     get_token (with_store cfg l) scopes claims tenant_id enable_cae s = r).
Proof.
  intros r. subst r. split; [|split; [|split]].
  - intros ev. apply get_token_flags.
  - intros Hne. destruct scopes as [|sc rest]; [contradiction|].
    apply get_token_reads_selected_slot.
  - intros c'. apply get_token_other_slot.
  - intros l Hl. apply get_token_other_store. exact Hl.
Qed.

(** C9 (as stated, refuted): on a cold standard slot, a call whose account
    resolution fails still leaves the loaded cache in the slot, so the
    cache slots after a failed call differ from those before it. *)
Lemma get_token_keeps_loaded_cache_on_failure :
  ~ (forall cfg s scopes claims tenant_id enable_cae,
       let r := get_token cfg scopes claims tenant_id enable_cae s in
       (exists e, res r = Err e) ->
       _cache (st r) = _cache s /\ _cae_cache (st r) = _cae_cache s).
Proof.
  intros H.
  specialize (H carol_cfg cold [demo_scope] None None false).
  simpl in H. destruct H as [H _].
  - exists (CredentialUnavailableError NO_ACCOUNTS). reflexivity.
  - discriminate H.
Qed.

(** C9 (amended): [get_token] never changes a loaded cache and never
    touches the slot of the other CAE partition; its only change to the
    cache slots is the lazy load, which fills the selected slot, when it is
    empty, with what the persistent store holds.  After any call with
    scopes, whatever its outcome, the selected slot holds exactly the cache
    the call worked on ([loaded_cache]): a cache loaded by the call stays in
    place even when the call fails afterwards. *)
Theorem get_token_cache_frame cfg s scopes claims tenant_id enable_cae :
  let s' := st (get_token cfg scopes claims tenant_id enable_cae s) in
  selected_cache (negb enable_cae) s' = selected_cache (negb enable_cae) s /\
  (selected_cache enable_cae s' = selected_cache enable_cae s \/
   (selected_cache enable_cae s = None /\
    selected_cache enable_cae s' = load_persistent_cache cfg enable_cae)) /\
  selected_cache enable_cae s'
  = match scopes with
    | [] => selected_cache enable_cae s
    | _ :: _ => loaded_cache cfg enable_cae s
    end.
Proof.
  destruct scopes as [|sc rest]; [simpl; auto|].
  split_call s enable_cae; crush_branches; auto.
Qed.


(** ** Witnesses *)

Lemma get_token_cache_unavailable_witness :
  [demo_scope] <> [] /\ selected_cache true cold = None /\
  load_persistent_cache demo_cfg true = None /\
  res (get_token demo_cfg [demo_scope] None None true cold)
    = Err (CredentialUnavailableError "Shared token cache unavailable") /\
  exchanges (trace (get_token demo_cfg [demo_scope] None None true cold)) = [].
Proof.
  split; [discriminate|]. split; [reflexivity|]. split; [reflexivity|].
  apply (get_token_cache_unavailable demo_cfg cold [demo_scope] None None true);
    [discriminate | reflexivity | reflexivity].
Defined.

Lemma get_token_cached_access_token_witness :
  let e := mkCachedAccessToken "fresh-at" 9000 [demo_scope] "uid-a" in
  loaded_cache demo_cfg false (loaded fresh_cache) = Some fresh_cache /\
  select_account None None fresh_cache = Ok alice /\
  In e (access_tokens fresh_cache) /\
  access_token_valid 1000 [demo_scope] alice e = true /\
  exists e', In e' (access_tokens fresh_cache) /\
    access_token_valid 1000 [demo_scope] alice e' = true /\
    res (get_token demo_cfg [demo_scope] None None false (loaded fresh_cache))
      = Ok (to_AccessToken e') /\
    exchanges (trace (get_token demo_cfg [demo_scope] None None false (loaded fresh_cache))) = [].
Proof.
  intros e. split; [reflexivity|]. split; [reflexivity|].
  split; [simpl; auto|]. split; [reflexivity|].
  apply (get_token_cached_access_token demo_cfg (loaded fresh_cache) [demo_scope]
           None None false fresh_cache alice e);
    [discriminate | reflexivity | reflexivity | simpl; auto | reflexivity].
Defined.

Lemma get_token_single_exchange_witness :
  loaded_cache demo_cfg false cold = Some demo_cache /\
  select_account None None demo_cache = Ok alice /\
  find_access_token 1000 [demo_scope] alice demo_cache = None /\
  refresh_tokens_for alice demo_cache = ["rt-1"; "rt-2"] /\
  exchanges (trace (get_token demo_cfg [demo_scope] None None false cold))
    = [ObtainTokenByRefreshToken [demo_scope] "rt-1" None None] /\
  res (get_token demo_cfg [demo_scope] None None false cold)
    = exchange demo_cfg [demo_scope] "rt-1" None None.
Proof.
  split; [reflexivity|]. split; [reflexivity|]. split; [reflexivity|].
  split; [reflexivity|].
  apply (get_token_single_exchange demo_cfg cold [demo_scope] None None false
           demo_cache alice "rt-1" ["rt-2"]);
    [discriminate | reflexivity | reflexivity | reflexivity | reflexivity].
Defined.

Lemma get_token_exchange_error_propagates_witness :
  exchange revoked_cfg [demo_scope] "rt-1" None None
    = Err (ClientAuthenticationError "refresh token revoked") /\
  res (get_token revoked_cfg [demo_scope] None None false cold)
    = Err (ClientAuthenticationError "refresh token revoked") /\
  exchanges (trace (get_token revoked_cfg [demo_scope] None None false cold))
    = [ObtainTokenByRefreshToken [demo_scope] "rt-1" None None].
Proof.
  split; [reflexivity|].
  apply (get_token_exchange_error_propagates revoked_cfg cold [demo_scope] None None
           false demo_cache alice "rt-1" ["rt-2"]);
    [discriminate | reflexivity | reflexivity | reflexivity | reflexivity | reflexivity].
Defined.

Lemma public_get_token_forwards_tenant_id_witness :
  let r := public_get_token demo_cfg silent_stub (SharedTokenCacheCredential_init false)
             [demo_scope] None (Some "tenant-x") false cold in
  exchanges (trace r) = [ObtainTokenByRefreshToken [demo_scope] "rt-1" None (Some "tenant-x")] /\
  res r = exchange demo_cfg [demo_scope] "rt-1" None (Some "tenant-x").
Proof.
  apply (public_get_token_forwards_tenant_id silent_stub demo_cfg cold [demo_scope] None
           (Some "tenant-x") false demo_cache alice "rt-1" ["rt-2"]);
    [discriminate | reflexivity | reflexivity | reflexivity | reflexivity].
Defined.

Lemma get_token_no_refresh_token_witness :
  refresh_tokens_for alice bare_cache = [] /\
  exists msg,
    res (get_token demo_cfg [demo_scope] None None false (loaded bare_cache))
      = Err (CredentialUnavailableError msg) /\
    (exists pre post, msg = pre ++ username alice ++ post) /\
    exchanges (trace (get_token demo_cfg [demo_scope] None None false (loaded bare_cache))) = [].
Proof.
  split; [reflexivity|].
  apply (get_token_no_refresh_token demo_cfg (loaded bare_cache) [demo_scope] None None
           false bare_cache alice);
    [discriminate | reflexivity | reflexivity | reflexivity | reflexivity].
Defined.

Lemma get_token_account_not_unique_witness :
  length (filter (account_matches None None) (accounts two_accounts_cache)) = 2 /\
  res (get_token demo_cfg [demo_scope] None None false (loaded two_accounts_cache))
    = Err (CredentialUnavailableError
             (if Nat.eqb (length (filter (account_matches None None) (accounts two_accounts_cache))) 0
              then NO_ACCOUNTS else MULTIPLE_ACCOUNTS)) /\
  existsb is_token_lookup
    (trace (get_token demo_cfg [demo_scope] None None false (loaded two_accounts_cache))) = false.
Proof.
  split; [reflexivity|].
  apply (get_token_account_not_unique demo_cfg (loaded two_accounts_cache) [demo_scope]
           None None false two_accounts_cache);
    [discriminate | reflexivity | discriminate].
Defined.

(** The tenant passed to the public [get_token] reaches the service: two
    tenants, two different tokens. *)
Example public_get_token_tenant_changes_token :
  res (public_get_token demo_cfg silent_stub (SharedTokenCacheCredential_init false)
         [demo_scope] None (Some "tenant-1") false cold)
  <> res (public_get_token demo_cfg silent_stub (SharedTokenCacheCredential_init false)
            [demo_scope] None (Some "tenant-2") false cold).
Proof. vm_compute. discriminate. Qed.

(** ** Further properties of [get_token] *)

Lemma loads_iff_cold cfg s sc rest claims tenant_id enable_cae :
  existsb is_load (trace (get_token cfg (sc :: rest) claims tenant_id enable_cae s))
  = match selected_cache enable_cae s with None => true | Some _ => false end.
Proof. split_call s enable_cae; crush_branches; auto. Qed.

Lemma selected_slot_after cfg s sc rest claims tenant_id enable_cae :
  selected_cache enable_cae (st (get_token cfg (sc :: rest) claims tenant_id enable_cae s))
  = loaded_cache cfg enable_cae s.
Proof. split_call s enable_cae; crush_branches; auto. Qed.

(** Lines 127-128: a call with scopes reads the persistent store exactly
    when the selected slot is empty. *)
Theorem get_token_loads_iff_cold cfg s scopes claims tenant_id enable_cae :
  scopes <> [] ->
  existsb is_load (trace (get_token cfg scopes claims tenant_id enable_cae s))
  = match selected_cache enable_cae s with None => true | Some _ => false end.
Proof.
  intros Hne. destruct scopes as [|sc rest]; [contradiction|].
  apply loads_iff_cold.
Qed.

(** Two calls in a row with the same CAE flag: when the store holds a
    cache, the second call does not read the store again, whatever the first
    call's outcome; when the store holds none, the second call reads it
    again (the failed load is not remembered). *)
Theorem get_token_second_call_load cfg s scopes1 claims1 tenant1 scopes2 claims2 tenant2 enable_cae :
  scopes1 <> [] -> scopes2 <> [] ->
  let s1 := st (get_token cfg scopes1 claims1 tenant1 enable_cae s) in
  existsb is_load (trace (get_token cfg scopes2 claims2 tenant2 enable_cae s1))
  = match load_persistent_cache cfg enable_cae, selected_cache enable_cae s with
    | None, None => true
    | _, _ => false
    end.
Proof.
  intros Hne1 Hne2 s1. subst s1.
  destruct scopes1 as [|sc1 rest1]; [contradiction|].
  destruct scopes2 as [|sc2 rest2]; [contradiction|].
  rewrite loads_iff_cold, selected_slot_after. unfold loaded_cache.
  destruct (selected_cache enable_cae s), (load_persistent_cache cfg enable_cae); reflexivity.
Qed.

(** Line 136 passes neither [claims] nor [tenant_id] to the cache lookups:
    these two arguments matter only to the exchange.  Two calls that differ
    only in them behave identically whenever one of them makes no exchange
    (in particular a cached access token is returned even under a claims
    challenge). *)
Theorem get_token_claims_only_reach_exchange cfg s scopes claims1 tenant1 claims2 tenant2 enable_cae :
  exchanges (trace (get_token cfg scopes claims1 tenant1 enable_cae s)) = [] ->
  get_token cfg scopes claims2 tenant2 enable_cae s
  = get_token cfg scopes claims1 tenant1 enable_cae s.
Proof.
  intros H.
  destruct scopes as [|sc rest]; [reflexivity|].
  revert H. split_call s enable_cae; crush_branches; intros H;
    try discriminate; reflexivity.
Qed.

Lemma get_token_loads_iff_cold_witness :
  [demo_scope] <> [] /\
  existsb is_load (trace (get_token demo_cfg [demo_scope] None None false cold)) = true.
Proof.
  split; [discriminate|].
  apply (get_token_loads_iff_cold demo_cfg cold [demo_scope] None None false).
  discriminate.
Defined.

Lemma get_token_second_call_load_witness :
  existsb is_load
    (trace (get_token demo_cfg [demo_scope] None None false
              (st (get_token demo_cfg [demo_scope] None None false cold)))) = false.
Proof.
  apply (get_token_second_call_load demo_cfg cold [demo_scope] None None [demo_scope]
           None None false); discriminate.
Defined.

Lemma get_token_claims_only_reach_exchange_witness :
  exchanges (trace (get_token demo_cfg [demo_scope] None None false (loaded fresh_cache))) = [] /\
  get_token demo_cfg [demo_scope] (Some "claims-challenge") (Some "tenant-x") false
    (loaded fresh_cache)
  = get_token demo_cfg [demo_scope] None None false (loaded fresh_cache).
Proof.
  split; [reflexivity|].
  apply (get_token_claims_only_reach_exchange demo_cfg (loaded fresh_cache) [demo_scope]
           None None (Some "claims-challenge") (Some "tenant-x") false).
  reflexivity.
Defined.

End SharedCache.

Module AnalyzeSampleFacts.
Import AnalyzeSample.

Section Facts.

Variable float : Type.
Variable str_float : float -> string.
Variable str_float_list : list float -> string.
Variable str_odata : ODataV4Format -> string.
Variable str_http_error : HttpResponseError -> string.
Variable casefold : string -> string.

Local Abbreviation report := (print_key_value_pairs float str_float str_float_list).
Local Abbreviation pairs := (print_pairs float str_float str_float_list).
Local Abbreviation pair := (print_pair float str_float str_float_list).
Local Abbreviation regions := (print_regions float str_float_list).

Lemma prefix_app (p x : string) : prefix p (p ++ x) = true.
Proof.
  induction p as [|ch p IH]; simpl; [destruct x; reflexivity|].
  destruct (ascii_dec ch ch); [exact IH | contradiction].
Qed.

Lemma prefix_empty (x : string) : prefix EmptyString x = true.
Proof. destruct x; reflexivity. Qed.

Lemma printed_app (a b : list io) : printed (a ++ b) = (printed a ++ printed b)%list.
Proof. unfold printed. apply flat_map_app. Qed.

Ltac lines := repeat progress (rewrite ?printed_app, ?filter_app, ?prefix_empty; simpl).


Lemma regions_lines rs :
  exists out, regions rs = (out, Done tt) /\
  filter (prefix "- Key-value Pair #") (printed out) = [] /\
  filter (prefix "    Value: ") (printed out) = [].
Proof.
  induction rs as [|r rs IH]; [exists []; simpl; auto|].
  destruct IH as (out & E & H1 & H2).
  simpl. unfold print_region, print, bindIO. rewrite E. simpl.
  eexists; split; [reflexivity|]. simpl. auto.
Qed.

Lemma pair_lines i kvp :
  regions_present float kvp = true ->
  snd (pair i kvp) = Done tt /\
  filter (prefix "- Key-value Pair #") (printed (fst (pair i kvp))) = [pair_header i] /\
  length (filter (prefix "    Value: ") (printed (fst (pair i kvp))))
    = (if has_value float kvp then 1 else 0)%nat.
Proof.
  destruct kvp as [[kc [krs|]] v conf]; simpl; intros H; [|discriminate].
  destruct (regions_lines krs) as (kout & Ek & Hk1 & Hk2).
  unfold print_pair, for_bounding_regions, bindIO, print, pure; simpl.
  rewrite Ek.
  destruct v as [[vc [vrs|]]|]; [| discriminate |].
  - destruct (regions_lines vrs) as (vout & Ev & Hv1 & Hv2).
    simpl. rewrite Ev. simpl.
    lines. rewrite Hk1, Hk2, Hv1, Hv2. simpl. auto.
  - lines. rewrite Hk1, Hk2. simpl. auto.
Qed.

Lemma pair_outcome i kvp :
  snd (pair i kvp)
  = if regions_present float kvp then Done tt else Raised (TypeError NOT_ITERABLE).
Proof.
  destruct kvp as [[kc [krs|]] v conf]; simpl;
    unfold print_pair, for_bounding_regions, bindIO, print, pure, throw; simpl;
    [|reflexivity].
  destruct (regions_lines krs) as (kout & Ek & _ & _). rewrite Ek.
  destruct v as [[vc [vrs|]]|]; simpl; [|reflexivity|reflexivity].
  destruct (regions_lines vrs) as (vout & Ev & _ & _). rewrite Ev. reflexivity.
Qed.

Lemma pairs_outcome i kvps :
  snd (pairs i kvps)
  = if forallb (regions_present float) kvps then Done tt else Raised (TypeError NOT_ITERABLE).
Proof.
  revert i. induction kvps as [|kvp rest IH]; intros i; [reflexivity|].
  simpl. unfold bindIO at 1.
  pose proof (pair_outcome i kvp) as Hp.
  destruct (pair i kvp) as [out r]. simpl in Hp. subst r.
  destruct (regions_present float kvp); simpl; [|reflexivity].
  specialize (IH (i + 1)%Z). destruct (pairs (i + 1)%Z rest) as [out2 r2].
  exact IH.
Qed.

Lemma pairs_lines j kvps :
  forallb (regions_present float) kvps = true ->
  snd (pairs (Z.of_nat j) kvps) = Done tt /\
  filter (prefix "- Key-value Pair #") (printed (fst (pairs (Z.of_nat j) kvps)))
    = map (fun k => pair_header (Z.of_nat k)) (seq j (length kvps)) /\
  length (filter (prefix "    Value: ") (printed (fst (pairs (Z.of_nat j) kvps))))
    = length (filter (has_value float) kvps).
Proof.
  revert j. induction kvps as [|kvp rest IH]; intros j Hall; [simpl; auto|].
  simpl in Hall. apply andb_prop in Hall as [Hk Hrest].
  destruct (pair_lines (Z.of_nat j) kvp Hk) as (Hp0 & Hp1 & Hp2).
  destruct (IH (S j) Hrest) as (Hr0 & Hr1 & Hr2).
  rewrite Nat2Z.inj_succ in Hr0, Hr1, Hr2. unfold Z.succ in Hr0, Hr1, Hr2.
  simpl. unfold bindIO at 1.
  destruct (pair (Z.of_nat j) kvp) as [out r]. simpl in Hp0, Hp1, Hp2. subst r.
  destruct (pairs (Z.of_nat j + 1)%Z rest) as [out2 r2]. simpl in Hr0, Hr1, Hr2 |- *.
  split; [exact Hr0|].
  rewrite printed_app, !filter_app, Hp1, Hr1, length_app, Hp2, Hr2.
  split; [reflexivity|].
  destruct (has_value float kvp); reflexivity.
Qed.

(** Lines 73-86: on a result whose key-value pairs and the region lists
    the loop walks are all present, the report completes; it opens with the
    banner and the count of pairs, ends with the closing rule, announces
    the pairs as #0, #1, ... in order, and prints one "Value:" line per
    pair that has a value. *)
Theorem print_key_value_pairs_report kvps :
  forallb (regions_present float) kvps = true ->
  let (out, r) := report (Some kvps) in
  r = Done tt /\
  exists body,
    printed out
      = ([HEADER; ("Detected " ++ str_int (Z.of_nat (length kvps)) ++ " Key-value Pairs:")%string]
        ++ body ++ [FOOTER])%list /\
    filter (prefix "- Key-value Pair #") body
      = map (fun k => pair_header (Z.of_nat k)) (seq 0 (length kvps)) /\
    length (filter (prefix "    Value: ") body) = length (filter (has_value float) kvps).
Proof.
  intros Hall.
  destruct (pairs_lines 0 kvps Hall) as (H0 & H1 & H2). simpl Z.of_nat in H0, H1, H2.
  unfold print_key_value_pairs, bindIO, print.
  destruct (pairs 0%Z kvps) as [out r]. simpl in H0, H1, H2. subst r.
  split; [reflexivity|].
  exists (printed out). split; [|auto].
  cbn [app printed flat_map]. rewrite printed_app. reflexivity.
Qed.

(** Lines 74-83: the report raises [TypeError] when the result has no
    key-value pairs ([len(None)]) or when a pair's key, or its present
    value, has no bounding regions (iterating [None]); otherwise it
    completes. *)
Theorem print_key_value_pairs_outcome kvps :
  snd (report kvps)
  = match kvps with
    | None => Raised (TypeError NO_LEN)
    | Some l => if forallb (regions_present float) l then Done tt
                else Raised (TypeError NOT_ITERABLE)
    end.
Proof.
  destruct kvps as [l|]; [|reflexivity].
  unfold print_key_value_pairs, bindIO, print. simpl.
  pose proof (pairs_outcome 0%Z l) as H.
  destruct (pairs 0%Z l) as [out r]. simpl in H |- *. subst r.
  destruct (forallb (regions_present float) l); reflexivity.
Qed.

Local Abbreviation analyze := (analyze_key_value_pairs float str_float str_float_list).
Local Abbreviation run_main :=
  (main float str_float str_float_list str_odata str_http_error casefold).

Lemma bind_prints {A B} (m : IO A) (k : A -> IO B) :
  forallb is_print (fst m) = true ->
  (forall a, forallb is_print (fst (k a)) = true) ->
  forallb is_print (fst (bindIO m k)) = true.
Proof.
  destruct m as [out [a|e]]; simpl; intros Hm Hk; [|exact Hm].
  specialize (Hk a). destruct (k a) as [out2 r]. simpl in *.
  rewrite forallb_app, Hm, Hk. reflexivity.
Qed.

Lemma regions_prints rs : forallb is_print (fst (regions rs)) = true.
Proof.
  induction rs as [|r rs IH]; [reflexivity|].
  cbn [print_regions]. apply bind_prints; [reflexivity | intros; exact IH].
Qed.

Lemma for_regions_prints o :
  forallb is_print (fst (for_bounding_regions float str_float_list o)) = true.
Proof. destruct o; [apply regions_prints | reflexivity]. Qed.

Lemma pair_prints i kvp : forallb is_print (fst (pair i kvp)) = true.
Proof.
  unfold print_pair.
  apply bind_prints; [reflexivity | intros _].
  apply bind_prints; [reflexivity | intros _].
  apply bind_prints; [apply for_regions_prints | intros _].
  apply bind_prints; [| intros _; reflexivity].
  destruct (value float kvp);
    [apply bind_prints; [reflexivity | intros _; apply for_regions_prints] | reflexivity].
Qed.

Lemma pairs_prints i kvps : forallb is_print (fst (pairs i kvps)) = true.
Proof.
  revert i. induction kvps as [|kvp rest IH]; intros i; [reflexivity|].
  cbn [print_pairs]. apply bind_prints; [apply pair_prints | intros; apply IH].
Qed.

Lemma report_prints kvps : forallb is_print (fst (report kvps)) = true.
Proof.
  unfold print_key_value_pairs. apply bind_prints; [reflexivity|intros _].
  destruct kvps as [l|]; [|reflexivity].
  apply bind_prints; [reflexivity|intros _].
  apply bind_prints; [apply pairs_prints|reflexivity].
Qed.

(** Line 95: [load_dotenv(find_dotenv())] does no I/O but opening and
    closing the [.env] file it found. *)
Lemma load_dotenv_io w :
  fst (load_dotenv float w) = [] \/
  exists p, find_dotenv float w = Some p /\ fst (load_dotenv float w) = [Open p; Close p].
Proof.
  unfold load_dotenv, with_open, bindIO, pure, throw.
  destruct (find_dotenv float w) as [p|]; [|left; reflexivity].
  destruct (can_open float w p); [|left; reflexivity].
  destruct (dotenv_values float w p); simpl; right; exists p; auto.
Qed.

(** Lines 58-59 and 95: when DOCUMENTINTELLIGENCE_ENDPOINT, or else
    DOCUMENTINTELLIGENCE_API_KEY, is set neither in the environment nor by
    the [.env] file, the script ends with [KeyError] for that name; its
    only I/O is reading the [.env] file, if one was found: no document is
    opened, nothing is sent to the service and nothing is printed. *)
Theorem main_missing_environment w path out0 w' :
  load_dotenv float w = (out0, Done w') ->
  environ float w' "DOCUMENTINTELLIGENCE_ENDPOINT" = None \/
  environ float w' "DOCUMENTINTELLIGENCE_API_KEY" = None ->
  main float str_float str_float_list str_odata str_http_error casefold w path
  = (out0, Raised (KeyError
                  (match environ float w' "DOCUMENTINTELLIGENCE_ENDPOINT" with
                   | None => "DOCUMENTINTELLIGENCE_ENDPOINT"
                   | Some _ => "DOCUMENTINTELLIGENCE_API_KEY"
                   end))) /\
  (out0 = [] \/ exists p, find_dotenv float w = Some p /\ out0 = [Open p; Close p]).
Proof.
  intros Hload H.
  pose proof (load_dotenv_io w) as Hio. rewrite Hload in Hio. split; [|exact Hio].
  unfold main. rewrite Hload.
  unfold bindIO at 1.
  unfold analyze_key_value_pairs, environ_get, bindIO, pure, throw.
  destruct (environ float w' "DOCUMENTINTELLIGENCE_ENDPOINT") as [ep|];
    [|rewrite app_nil_r; reflexivity].
  destruct H as [H|H]; [discriminate|]. rewrite H. rewrite app_nil_r. reflexivity.
Qed.

(** Lines 64-71: the document is opened at most once, for exactly one
    request, and closed right after it, also when the request raises;
    the script waits for the result only after the file is closed, and
    afterwards only prints. *)
Theorem analyze_closes_file_before_polling w path :
  let out := fst (analyze w path) in
  (forall q, ~ In (Open q) out) \/
  exists endpoint api_key rest,
    out = Open path
          :: BeginAnalyze endpoint api_key "prebuilt-layout" ["keyValuePairs"]
               "application/octet-stream"
          :: Close path :: rest /\
    (rest = [] \/ exists rest', rest = PollResult :: rest' /\ forallb is_print rest' = true).
Proof.
  unfold analyze_key_value_pairs, environ_get, with_open, bindIO, pure, throw.
  destruct (environ float w "DOCUMENTINTELLIGENCE_ENDPOINT") as [ep|];
    [|left; simpl; intros q []].
  destruct (environ float w "DOCUMENTINTELLIGENCE_API_KEY") as [k|];
    [|left; simpl; intros q []].
  destruct (make_client float w ep k) as [e|]; [left; simpl; intros q []|].
  destruct (can_open float w path); [|left; simpl; intros q []].
  right. exists ep, k.
  destruct (begin float w ep k) as [e|]; simpl.
  - exists []. auto.
  - pose proof (report_prints
                  match poll float w with Done a => a | Raised _ => None end) as Hp.
    destruct (poll float w) as [kvps|e]; simpl.
    + destruct (report kvps) as [out2 r] eqn:E. simpl in Hp.
      eexists. split; [reflexivity|]. right. exists out2. auto.
    + eexists. split; [reflexivity|]. right. exists []. auto.
Qed.

(** Lines 94-111: an [HttpResponseError] raised by the analysis (run on
    the environment [load_dotenv] leaves) is raised again, unchanged; the
    script's output is the [.env] reading, the analysis's output and at
    most one line the handler prints. *)
Theorem main_reraises_http_error w path e out0 w' :
  load_dotenv float w = (out0, Done w') ->
  snd (analyze w' path) = Raised (HttpError e) ->
  snd (run_main w path) = Raised (HttpError e) /\
  exists extra,
    fst (run_main w path) = (out0 ++ fst (analyze w' path) ++ extra)%list /\
    (length extra <= 1)%nat /\ forallb is_print extra = true.
Proof.
  intros Hload H. unfold main. rewrite Hload. unfold bindIO at 1 2.
  destruct (analyze w' path) as [out r]. simpl in H. subst r. cbn [fst].
  unfold handle_http_error, bindIO, print, pure, throw.
  destruct (error e) as [inner|].
  - destruct (String.eqb (code inner) "InvalidImage") eqn:E1;
    destruct (String.eqb (code inner) "InvalidRequest") eqn:E2; simpl.
    + apply String.eqb_eq in E1, E2. rewrite E1 in E2. discriminate.
    + split; [reflexivity|]. eexists. split; [rewrite <- app_assoc; reflexivity|]. simpl. auto.
    + split; [reflexivity|]. eexists. split; [rewrite <- app_assoc; reflexivity|]. simpl. auto.
    + split; [reflexivity|]. exists []. split; [rewrite <- app_assoc; reflexivity|]. simpl. auto.
  - destruct (contains (casefold "Invalid request") (casefold (message e))); simpl.
    + split; [reflexivity|]. eexists. split; [rewrite <- app_assoc; reflexivity|]. simpl. auto.
    + split; [reflexivity|]. exists []. split; [rewrite <- app_assoc; reflexivity|]. simpl. auto.
Qed.

End Facts.

(** ** Witnesses *)

Lemma print_key_value_pairs_report_witness :
  forallb (regions_present Z) demo_pairs = true /\
  let (out, r) := print_key_value_pairs Z str_int (fun _ => "[0, 0, 1, 1]") (Some demo_pairs) in
  r = Done tt /\
  exists body,
    printed out
      = ([HEADER; ("Detected " ++ str_int (Z.of_nat (length demo_pairs)) ++ " Key-value Pairs:")%string]
        ++ body ++ [FOOTER])%list /\
    filter (prefix "- Key-value Pair #") body
      = map (fun k => pair_header (Z.of_nat k)) (seq 0 (length demo_pairs)) /\
    length (filter (prefix "    Value: ") body) = length (filter (has_value Z) demo_pairs).
Proof.
  split; [reflexivity|].
  apply (print_key_value_pairs_report Z str_int (fun _ => "[0, 0, 1, 1]") demo_pairs).
  reflexivity.
Defined.

Lemma main_missing_environment_witness :
  load_dotenv Z world_without_key
  = ([Open dotenv_path; Close dotenv_path],
     Done (with_environ Z world_without_key (dotenv_environ only_endpoint keyless_dotenv))) /\
  (environ Z (with_environ Z world_without_key (dotenv_environ only_endpoint keyless_dotenv))
     "DOCUMENTINTELLIGENCE_ENDPOINT" = None \/
   environ Z (with_environ Z world_without_key (dotenv_environ only_endpoint keyless_dotenv))
     "DOCUMENTINTELLIGENCE_API_KEY" = None) /\
  main Z str_int (fun _ => "[]") (fun _ => "error") (fun _ => "error") (fun x => x)
    world_without_key "sample.png"
  = ([Open dotenv_path; Close dotenv_path],
     Raised (KeyError "DOCUMENTINTELLIGENCE_API_KEY")).
Proof.
  split; [reflexivity|]. split; [right; reflexivity|].
  apply (main_missing_environment Z str_int (fun _ => "[]") (fun _ => "error")
           (fun _ => "error") (fun x => x) world_without_key "sample.png"
           [Open dotenv_path; Close dotenv_path]
           (with_environ Z world_without_key (dotenv_environ only_endpoint keyless_dotenv)));
    [reflexivity | right; reflexivity].
Defined.

Lemma main_reraises_http_error_witness :
  load_dotenv Z rejecting_world
  = ([Open dotenv_path; Close dotenv_path],
     Done (with_environ Z rejecting_world (dotenv_environ only_endpoint keyed_dotenv))) /\
  snd (analyze_key_value_pairs Z str_int (fun _ => "[]")
         (with_environ Z rejecting_world (dotenv_environ only_endpoint keyed_dotenv)) "sample.png")
    = Raised (HttpError demo_http_error) /\
  snd (main Z str_int (fun _ => "[]") (fun _ => "InvalidImage") (fun _ => "error")
         (fun x => x) rejecting_world "sample.png") = Raised (HttpError demo_http_error) /\
  exists extra,
    fst (main Z str_int (fun _ => "[]") (fun _ => "InvalidImage") (fun _ => "error")
           (fun x => x) rejecting_world "sample.png")
    = ([Open dotenv_path; Close dotenv_path]
       ++ fst (analyze_key_value_pairs Z str_int (fun _ => "[]")
                 (with_environ Z rejecting_world (dotenv_environ only_endpoint keyed_dotenv))
                 "sample.png")
       ++ extra)%list /\
    (length extra <= 1)%nat /\ forallb is_print extra = true.
Proof.
  split; [reflexivity|]. split; [reflexivity|].
  apply (main_reraises_http_error Z str_int (fun _ => "[]") (fun _ => "InvalidImage")
           (fun _ => "error") (fun x => x) rejecting_world "sample.png" demo_http_error
           [Open dotenv_path; Close dotenv_path]
           (with_environ Z rejecting_world (dotenv_environ only_endpoint keyed_dotenv)));
    reflexivity.
Defined.

End AnalyzeSampleFacts.
